(** * Image media-type detection by magic bytes

    A shallow embedding of [fix_image_media_type.py]: the signature checks of
    [detect_image_type], its read-and-dispatch wrapper with the [try/except]
    that surrounds it, [get_base64_with_correct_type], and the command line
    [main].

    Python values are modelled as follows.
    - [bytes] is [list byte]; a slice [b[lo:hi]] is total, as in Python
      (a slice past the end is shorter or empty, never an error).
    - [Optional[str]] is [option string]; [None] is [None].
    - File access and [sys.stderr] are threaded through a small monad [IO]:
      a computation reads the file system, appends to the standard-error
      stream, and either returns a value or raises an exception. *)

From Stdlib Require Import String Ascii Strings.Byte List Bool Arith NArith.
From Stdlib Require Import Lia Permutation.
Import ListNotations.

Local Open Scope string_scope.
Local Open Scope list_scope.

(** ** Python [bytes] *)

Module PyBytes.

Definition bytes := list byte.

(** [b "RIFF"] is the literal [b'RIFF']. *)
Definition b (s : string) : bytes := list_byte_of_string s.

(** [slice lo hi x] is [x[lo:hi]] for non-negative constant bounds. *)
Definition slice (lo hi : nat) (x : bytes) : bytes :=
  firstn (hi - lo) (skipn lo x).

(** [x == y] on [bytes]. *)
Fixpoint bytes_eqb (x y : bytes) : bool :=
  match x, y with
  | [], [] => true
  | c :: x', d :: y' => Byte.eqb c d && bytes_eqb x' y'
  | _, _ => false
  end.

(** [x in (y1, y2, ...)]: equality with some member of the tuple. *)
Definition bytes_in (x : bytes) (ys : list bytes) : bool :=
  existsb (bytes_eqb x) ys.

(** [not x] on [bytes]: true exactly for the empty sequence. *)
Definition bytes_not (x : bytes) : bool :=
  match x with [] => true | _ :: _ => false end.

End PyBytes.
Import PyBytes.

(** ** The signature checks (lines 35-66 of [detect_image_type])

    The body of the [try] block after the read, as a function of the header
    that was read. *)

Definition png_magic : bytes := [x89] ++ b "PNG" ++ [x0d; x0a; x1a; x0a].
Definition jpeg_magic : bytes := [xff; xd8; xff].
Definition ico_magic : bytes := [x00; x00; x01; x00].

Definition classify (header : bytes) : option string :=
  if bytes_not header then None
  else if bytes_eqb (slice 0 8 header) png_magic then Some "image/png"
  else if bytes_eqb (slice 0 3 header) jpeg_magic then Some "image/jpeg"
  else if bytes_eqb (slice 0 4 header) (b "RIFF")
          && bytes_eqb (slice 8 12 header) (b "WEBP") then Some "image/webp"
  else if bytes_in (slice 0 6 header) [b "GIF87a"; b "GIF89a"] then Some "image/gif"
  else if bytes_eqb (slice 0 2 header) (b "BM") then Some "image/bmp"
  else if bytes_eqb (slice 0 4 header) ico_magic then Some "image/x-icon"
  else if bytes_in (slice 0 2 header) [b "II"; b "MM"] then Some "image/tiff"
  else None.

(** ** The rule table of the specification

    The second definition of classification, written from the table of the
    specification: seven formats in priority order, each with a condition on
    the header given in hexadecimal, first match wins. *)

Inductive format : Type := PNG | JPEG | WEBP | GIF | BMP | ICO | TIFF.

Definition media_type (f : format) : string :=
  match f with
  | PNG => "image/png"
  | JPEG => "image/jpeg"
  | WEBP => "image/webp"
  | GIF => "image/gif"
  | BMP => "image/bmp"
  | ICO => "image/x-icon"
  | TIFF => "image/tiff"
  end.

Definition rule_cond (f : format) (h : bytes) : bool :=
  match f with
  | PNG => bytes_eqb (slice 0 8 h) [x89; x50; x4e; x47; x0d; x0a; x1a; x0a]
  | JPEG => bytes_eqb (slice 0 3 h) [xff; xd8; xff]
  | WEBP => bytes_eqb (slice 0 4 h) [x52; x49; x46; x46]
            && bytes_eqb (slice 8 12 h) [x57; x45; x42; x50]
  | GIF => bytes_eqb (slice 0 6 h) [x47; x49; x46; x38; x37; x61]
           || bytes_eqb (slice 0 6 h) [x47; x49; x46; x38; x39; x61]
  | BMP => bytes_eqb (slice 0 2 h) [x42; x4d]
  | ICO => bytes_eqb (slice 0 4 h) [x00; x00; x01; x00]
  | TIFF => bytes_eqb (slice 0 2 h) [x49; x49]
            || bytes_eqb (slice 0 2 h) [x4d; x4d]
  end.

(** Number of header bytes a rule looks at. *)
Definition rule_len (f : format) : nat :=
  match f with
  | PNG => 8 | JPEG => 3 | WEBP => 12 | GIF => 6 | BMP => 2 | ICO => 4 | TIFF => 2
  end.

Definition rule_table : list format := [PNG; JPEG; WEBP; GIF; BMP; ICO; TIFF].

(** The rules checked in the order [order]; [None] is UNKNOWN. *)
Definition first_match (order : list format) (h : bytes) : option format :=
  find (fun f => rule_cond f h) order.

Definition classify_in_order (order : list format) (h : bytes) : option string :=
  option_map media_type (first_match order h).

Definition classify_table (h : bytes) : option string :=
  classify_in_order rule_table h.

(** ** [base64.b64encode]

    The standard alphabet of RFC 4648 with [=] padding, as the Python
    standard library computes it: three bytes make a 24-bit group that is cut
    into four 6-bit digits; a last group of one or two bytes is padded. *)

Module Base64.

Definition alphabet : string :=
  "ABCDEFGHIJKLMNOPQRSTUVWXYZabcdefghijklmnopqrstuvwxyz0123456789+/".

Definition pad : ascii := "="%char.

Definition digit (n : N) : ascii :=
  match String.get (N.to_nat n) alphabet with
  | Some c => c
  | None => pad
  end.

(** The 24-bit group of up to three bytes. *)
Definition group (a c d : byte) : N :=
  N.lor (N.shiftl (Byte.to_N a) 16)
        (N.lor (N.shiftl (Byte.to_N c) 8) (Byte.to_N d)).

(** The [i]-th 6-bit digit of a group, [i] counted from the left. *)
Definition sextet (g : N) (i : N) : ascii :=
  digit (N.land (N.shiftr g (18 - 6 * i)) 63).

Fixpoint b64encode (x : bytes) : string :=
  match x with
  | [] => ""
  | [a] =>
      let g := group a x00 x00 in
      String (sextet g 0) (String (sextet g 1) (String pad (String pad "")))
  | [a; c] =>
      let g := group a c x00 in
      String (sextet g 0) (String (sextet g 1) (String (sextet g 2) (String pad "")))
  | a :: c :: d :: rest =>
      let g := group a c d in
      String (sextet g 0) (String (sextet g 1) (String (sextet g 2)
        (String (sextet g 3) (b64encode rest))))
  end.

End Base64.

(** ** Files, standard error and exceptions *)

Module PyIO.

(** The exceptions the program can meet: an [OSError] of [open] or [read]
    (file not found, permission denied, I/O error) carrying the text that
    [str(e)] gives, and the [ValueError] the packager raises. *)
Inductive exn : Type :=
| OSError (text : string)
| ValueError (text : string).

Definition str (e : exn) : string :=
  match e with OSError t | ValueError t => t end.

(** What opening a path for binary reading and reading it gives: the
    exception raised, or the whole content of the file. *)
Definition filesystem : Type := string -> exn + bytes.

Inductive result (A : Type) : Type :=
| Return (a : A)
| Raise (e : exn).
Arguments Return {A} a.
Arguments Raise {A} e.

(** A computation reads the file system and the lines written to standard
    error so far, and gives its result with the lines written by then. *)
Definition IO (A : Type) : Type :=
  filesystem -> list string -> result A * list string.

Definition ret {A} (a : A) : IO A := fun _ err => (Return a, err).

Definition bind {A B} (m : IO A) (k : A -> IO B) : IO B :=
  fun fs err =>
    match m fs err with
    | (Return a, err') => k a fs err'
    | (Raise e, err') => (Raise e, err')
    end.

Definition raise {A} (e : exn) : IO A := fun _ err => (Raise e, err).

(** [try: m  except Exception as e: handler e]. *)
Definition try_except {A} (m : IO A) (handler : exn -> IO A) : IO A :=
  fun fs err =>
    match m fs err with
    | (Return a, err') => (Return a, err')
    | (Raise e, err') => handler e fs err'
    end.

(** [print(line, file=sys.stderr)]. *)
Definition print_stderr (line : string) : IO unit :=
  fun _ err => (Return tt, err ++ [line]).

(** [f.read(n)] on a fresh handle ([None] for [f.read()]). *)
Definition read (n : option nat) (content : bytes) : bytes :=
  match n with
  | Some k => firstn k content
  | None => content
  end.

(** [with open(path, 'rb') as f: ... f.read(n)]. *)
Definition open_read (path : string) (n : option nat) : IO bytes :=
  fun fs err =>
    match fs path with
    | inl e => (Raise e, err)
    | inr content => (Return (read n content), err)
    end.

(** The value a computation returns or the exception it raises, and the
    lines it writes, when started with an empty standard error. *)
Definition run {A} (m : IO A) (fs : filesystem) : result A * list string :=
  m fs [].

Definition value_of {A} (m : IO A) (fs : filesystem) : result A :=
  fst (run m fs).

Definition stderr_of {A} (m : IO A) (fs : filesystem) : list string :=
  snd (run m fs).

End PyIO.
Import PyIO.

Declare Scope io_scope.
Delimit Scope io_scope with io.
Notation "x <- m ;; k" := (bind m (fun x => k))
  (at level 61, m at next level, right associativity) : io_scope.
Notation "m ;; k" := (bind m (fun _ => k))
  (at level 61, right associativity) : io_scope.
Local Open Scope io_scope.

(** ** [detect_image_type] *)

Definition detect_image_type (file_path : string) : IO (option string) :=
  try_except
    (header <- open_read file_path (Some 12) ;;
     ret (classify header))
    (fun e =>
       print_stderr ("Error reading file: " ++ str e) ;;
       ret None).

(** ** [get_base64_with_correct_type] *)

(** [not media_type] on an [Optional[str]]: true for [None] and for the
    empty string. *)
Definition str_not (m : option string) : bool :=
  match m with
  | None => true
  | Some s => String.eqb s ""
  end.

(** The test [if not media_type] is kept as the source has it; the [match]
    around it only takes the string out of the [Optional[str]]. *)
Definition get_base64_with_correct_type (file_path : string)
  : IO (string * string) :=
  media_type <- detect_image_type file_path ;;
  match media_type with
  | Some mt =>
      if str_not media_type
      then raise (ValueError ("Could not detect image type for " ++ file_path))
      else
        image_data <- open_read file_path None ;;
        ret (mt, Base64.b64encode image_data)
  | None => raise (ValueError ("Could not detect image type for " ++ file_path))
  end.

(** ** Concrete files used below *)

Definition png_file : bytes :=
  png_magic ++ [x00; x00; x00; x0d] ++ b "IHDR" ++ [x00; x00; x00; x01].

Definition wav_header : bytes :=
  b "RIFF" ++ [x24; x00; x00; x00] ++ b "WAVE".

Definition webp_header : bytes :=
  b "RIFF" ++ [x24; x00; x00; x00] ++ b "WEBP".

(** A file system with one readable file, every other path missing. *)
Definition single_file (name : string) (content : bytes) : filesystem :=
  fun p =>
    if String.eqb p name then inr content
    else inl (OSError "[Errno 2] No such file or directory").

(** A file system in which no path can be read. *)
Definition no_files : filesystem :=
  fun _ => inl (OSError "[Errno 2] No such file or directory").

(** The first bytes a rule accepts; used to separate the rules. *)
Definition rule_first (f : format) : list byte :=
  match f with
  | PNG => [x89]
  | JPEG => [xff]
  | WEBP => [x52]
  | GIF => [x47]
  | BMP => [x42]
  | ICO => [x00]
  | TIFF => [x49; x4d]
  end.

(** The two ways [detect_image_type] gives no media type for a path: the
    file cannot be read, or it is read and no rule matches its header. *)
Inductive dispatch_failure (fs : filesystem) (path : string) : Prop :=
| io_failure (e : exn) :
    fs path = inl e -> dispatch_failure fs path
| no_match (content : bytes) :
    fs path = inr content ->
    (forall f, rule_cond f (read (Some 12) content) = false) ->
    dispatch_failure fs path.

(** ** Reading base64 digits back

    The position of a character in the alphabet, and the number a 6-bit
    digit of a group stands for; both serve to state and prove what the
    encoder guarantees. *)

Fixpoint index_of (c : ascii) (s : string) : N :=
  match s with
  | EmptyString => 0
  | String d s' => if Ascii.eqb c d then 0 else N.succ (index_of c s')
  end.

Definition sextet_value (g : N) (i : N) : N :=
  N.land (N.shiftr g (18 - 6 * i)) 63.

(** The characters base64 text is made of. *)
Definition base64_char (c : ascii) : Prop :=
  In c (list_ascii_of_string Base64.alphabet) \/ c = Base64.pad.

(** ** The command line: [main]

    The program run as a script.  Besides the files, [main] asks whether a
    path exists ([Path(file_path).exists()]), writes to standard output as
    well as standard error, and ends the process through [sys.exit]. *)

Module PyCLI.

(** The environment of a run: what reading each path gives, and whether
    [Path(p).exists()] holds. *)
Record env : Type := {
  files : filesystem;
  path_exists : string -> bool
}.

(** The texts written so far, one entry for each call of [print]. *)
Record streams : Type := {
  stdout : list string;
  stderr : list string
}.

(** How a piece of the script ends: normally, by [sys.exit(code)], or by
    an exception nobody catches. *)
Inductive ending (A : Type) : Type :=
| Done (a : A)
| SystemExit (code : nat)
| Uncaught (e : exn).
Arguments Done {A} a.
Arguments SystemExit {A} code.
Arguments Uncaught {A} e.

Definition CLI (A : Type) : Type := env -> streams -> ending A * streams.

Definition cret {A} (a : A) : CLI A := fun _ s => (Done a, s).

Definition cbind {A B} (m : CLI A) (k : A -> CLI B) : CLI B :=
  fun ev s =>
    match m ev s with
    | (Done a, s') => k a ev s'
    | (SystemExit c, s') => (SystemExit c, s')
    | (Uncaught e, s') => (Uncaught e, s')
    end.

(** A library call: it sees the files and standard error. *)
Definition lift {A} (m : IO A) : CLI A :=
  fun ev s =>
    match m (files ev) (stderr s) with
    | (Return a, err') => (Done a, {| stdout := stdout s; stderr := err' |})
    | (Raise e, err') => (Uncaught e, {| stdout := stdout s; stderr := err' |})
    end.

(** [print(text)]. *)
Definition print (text : string) : CLI unit :=
  fun _ s => (Done tt, {| stdout := stdout s ++ [text]; stderr := stderr s |}).

(** [print(text, file=sys.stderr)]. *)
Definition eprint (text : string) : CLI unit :=
  fun _ s => (Done tt, {| stdout := stdout s; stderr := stderr s ++ [text] |}).

(** [sys.exit(code)]. *)
Definition sys_exit {A} (code : nat) : CLI A := fun _ s => (SystemExit code, s).

(** [Path(p).exists()]. *)
Definition exists_ (p : string) : CLI bool :=
  fun ev s => (Done (path_exists ev p), s).

(** [if c: body] followed by the rest of the function. *)
Definition when (c : bool) (body : CLI unit) : CLI unit :=
  if c then body else cret tt.

(** The exit status of the process: 0 after a normal end, the argument of
    [sys.exit], 1 after an uncaught exception. *)
Definition exit_status {A} (r : ending A) : nat :=
  match r with
  | Done _ => 0
  | SystemExit c => c
  | Uncaught _ => 1
  end.

End PyCLI.
Import PyCLI.

Declare Scope cli_scope.
Delimit Scope cli_scope with cli.
Notation "x <- m ;; k" := (cbind m (fun x => k))
  (at level 61, m at next level, right associativity) : cli_scope.
Notation "m ;; k" := (cbind m (fun _ => k))
  (at level 61, right associativity) : cli_scope.

(** [str(x)] for an [Optional[str]], as [print] shows it. *)
Definition py_str (m : option string) : string :=
  match m with
  | Some s => s
  | None => "None"
  end.

(** [sys.argv] is the program name followed by the arguments. *)
Definition main (argv : list string) : CLI unit :=
  (when (negb (Nat.eqb (length argv) 2))
     (print "Usage: python fix_image_media_type.py <image_file>" ;;
      print (String "010" "Detects the actual image format by reading file headers.") ;;
      sys_exit 1) ;;
   let file_path := nth 1 argv "" in
   found <- exists_ file_path ;;
   when (negb found)
     (eprint ("Error: File not found: " ++ file_path) ;;
      sys_exit 1) ;;
   media_type <- lift (detect_image_type file_path) ;;
   if negb (str_not media_type)
   then print (py_str media_type)
   else
     eprint "Error: Could not detect image type" ;;
     sys_exit 1)%cli.

(** [python fix_image_media_type.py args...]: the exit status and what was
    written. *)
Definition run_script (argv : list string) (ev : env) : nat * streams :=
  let (r, s) := main argv ev {| stdout := []; stderr := [] |} in
  (exit_status r, s).

(** The two lines [main] prints when the argument count is wrong. *)
Definition usage_lines : list string :=
  ["Usage: python fix_image_media_type.py <image_file>";
   String "010" "Detects the actual image format by reading file headers."].

(** An environment with one existing, readable file. *)
Definition single_file_env (name : string) (content : bytes) : env :=
  {| files := single_file name content;
     path_exists := fun p => String.eqb p name |}.

(** An environment in which [name] exists but cannot be read. *)
Definition unreadable_env (name : string) : env :=
  {| files := fun _ => inl (OSError "[Errno 13] Permission denied");
     path_exists := fun p => String.eqb p name |}.

(** An environment without any file. *)
Definition empty_env : env :=
  {| files := no_files; path_exists := fun _ => false |}.

(** * Properties *)

(** ** The scenarios of the specification, by evaluation *)

Example classify_png : classify png_file = Some "image/png".
Proof. reflexivity. Qed.

Example classify_jpeg :
  classify [xff; xd8; xff; xe0; x00; x10; x4a; x46; x49; x46] = Some "image/jpeg".
Proof. reflexivity. Qed.

Example classify_webp : classify webp_header = Some "image/webp".
Proof. reflexivity. Qed.

Example classify_gif : classify (b "GIF89a") = Some "image/gif".
Proof. reflexivity. Qed.

Example classify_bmp : classify [x42; x4d] = Some "image/bmp".
Proof. reflexivity. Qed.

Example classify_nomatch : classify [xab; xcd; xef] = None.
Proof. reflexivity. Qed.

Example b64encode_foobar : Base64.b64encode (b "foobar") = "Zm9vYmFy".
Proof. reflexivity. Qed.

Example b64encode_fooba : Base64.b64encode (b "fooba") = "Zm9vYmE=".
Proof. reflexivity. Qed.

Example b64encode_f : Base64.b64encode (b "f") = "Zg==".
Proof. reflexivity. Qed.

Example b64encode_high : Base64.b64encode [xfb; xff; xbe] = "+/++".
Proof. reflexivity. Qed.

Example package_png :
  run (get_base64_with_correct_type "fake.webp") (single_file "fake.webp" png_file)
  = (Return ("image/png", "iVBORw0KGgoAAAANSUhEUgAAAAE="), []).
Proof. reflexivity. Qed.

(** ** Equality and slices of [bytes] *)

Section BytesFacts.

Lemma bytes_eqb_refl (x : bytes) : bytes_eqb x x = true.
Proof.
  induction x as [|c x IH]; simpl; [reflexivity|].
  rewrite IH, andb_true_r. apply byte_dec_lb. reflexivity.
Qed.

Lemma bytes_eqb_eq (x y : bytes) : bytes_eqb x y = true <-> x = y.
Proof.
  split.
  - revert y. induction x as [|c x IH]; intros [|d y] H; simpl in H;
      try discriminate; [reflexivity|].
    apply andb_true_iff in H. destruct H as [Hc Hx].
    apply byte_dec_bl in Hc. apply IH in Hx. congruence.
  - intros ->. apply bytes_eqb_refl.
Qed.

Lemma bytes_eqb_neq (x y : bytes) : bytes_eqb x y = false <-> x <> y.
Proof.
  rewrite <- bytes_eqb_eq. destruct (bytes_eqb x y); split; congruence.
Qed.

Lemma slice_length_le (lo hi : nat) (x : bytes) :
  length (slice lo hi x) <= length x - lo.
Proof.
  unfold slice. rewrite length_firstn, length_skipn. lia.
Qed.

(** A slice that would need bytes past the end of [x] is not equal to a
    pattern of the full width. *)
Lemma slice_short (lo hi : nat) (x pat : bytes) :
  length x < hi -> length pat = hi - lo -> 0 < length pat ->
  bytes_eqb (slice lo hi x) pat = false.
Proof.
  intros Hx Hp Hpos. apply bytes_eqb_neq. intros E.
  pose proof (slice_length_le lo hi x) as Hl. rewrite E in Hl. lia.
Qed.

Lemma slice_prefix (n : nat) (x pat : bytes) :
  bytes_eqb (slice 0 n x) pat = true -> exists t, x = pat ++ t.
Proof.
  intros H. apply bytes_eqb_eq in H. unfold slice in H. simpl in H.
  exists (skipn (n - 0) x). rewrite <- H. symmetry. apply firstn_skipn.
Qed.

(** A slice only looks at the bytes below its upper bound. *)
Lemma slice_firstn (lo hi k : nat) (x : bytes) :
  hi <= k -> slice lo hi (firstn k x) = slice lo hi x.
Proof.
  intros Hk. unfold slice. rewrite skipn_firstn_comm, firstn_firstn.
  f_equal. lia.
Qed.

End BytesFacts.

(** ** The checks of the code and the rule table *)

Section Rules.

(** The literals of the source are the byte patterns of the table. *)
Lemma literals :
  png_magic = [x89; x50; x4e; x47; x0d; x0a; x1a; x0a]
  /\ b "RIFF" = [x52; x49; x46; x46]
  /\ b "WEBP" = [x57; x45; x42; x50]
  /\ b "GIF87a" = [x47; x49; x46; x38; x37; x61]
  /\ b "GIF89a" = [x47; x49; x46; x38; x39; x61]
  /\ b "BM" = [x42; x4d]
  /\ b "II" = [x49; x49]
  /\ b "MM" = [x4d; x4d].
Proof. repeat split. Qed.

Lemma rule_cond_nil (f : format) : rule_cond f [] = false.
Proof. destruct f; reflexivity. Qed.

(** The sequential checks of the code are the table read top to bottom. *)
Lemma classify_first_match (h : bytes) :
  classify h = option_map media_type (first_match rule_table h).
Proof.
  destruct h as [|c t]; [reflexivity|].
  remember (c :: t) as h eqn:Eh.
  unfold classify, first_match, rule_table, find, rule_cond, bytes_in, existsb.
  rewrite Eh at 1. cbn [bytes_not]. clear Eh.
  change png_magic with [x89; x50; x4e; x47; x0d; x0a; x1a; x0a].
  change jpeg_magic with [xff; xd8; xff].
  change ico_magic with [x00; x00; x01; x00].
  change (b "RIFF") with [x52; x49; x46; x46].
  change (b "WEBP") with [x57; x45; x42; x50].
  change (b "GIF87a") with [x47; x49; x46; x38; x37; x61].
  change (b "GIF89a") with [x47; x49; x46; x38; x39; x61].
  change (b "BM") with [x42; x4d].
  change (b "II") with [x49; x49].
  change (b "MM") with [x4d; x4d].
  rewrite !orb_false_r.
  repeat match goal with
         | |- context [if ?c then _ else _] => destruct c
         end; reflexivity.
Qed.

(** A rule that matches fixes the first byte of the header. *)
Lemma rule_cond_first (f : format) (h : bytes) :
  rule_cond f h = true -> exists c t, h = c :: t /\ In c (rule_first f).
Proof.
  destruct f; unfold rule_cond; intros H;
    repeat match type of H with
           | _ && _ = true => apply andb_true_iff in H; destruct H as [H _]
           | _ || _ = true => apply orb_true_iff in H; destruct H as [H|H]
           end;
    apply slice_prefix in H; destruct H as [t ->];
    eexists; eexists; (split; [reflexivity|]); simpl; auto.
Qed.

Lemma rule_first_separates (f g : format) (c : byte) :
  In c (rule_first f) -> In c (rule_first g) -> f = g.
Proof.
  destruct f, g; simpl; intros Hf Hg; try reflexivity;
    exfalso; intuition (subst; discriminate).
Qed.

(** At most one rule matches a header. *)
Lemma rule_cond_unique (f g : format) (h : bytes) :
  rule_cond f h = true -> rule_cond g h = true -> f = g.
Proof.
  intros Hf Hg.
  apply rule_cond_first in Hf. destruct Hf as (c & t & -> & Hc).
  apply rule_cond_first in Hg. destruct Hg as (c' & t' & E & Hc').
  injection E as <- _. eapply rule_first_separates; eassumption.
Qed.

Lemma first_match_some (order : list format) (f : format) (h : bytes) :
  In f order -> rule_cond f h = true -> first_match order h = Some f.
Proof.
  unfold first_match. induction order as [|g order IH]; simpl; [tauto|].
  intros Hin Hf. destruct (rule_cond g h) eqn:Hg.
  - f_equal. eapply rule_cond_unique; eassumption.
  - destruct Hin as [->|Hin]; [congruence|]. apply IH; assumption.
Qed.

Lemma first_match_none (order : list format) (h : bytes) :
  (forall f, In f order -> rule_cond f h = false) -> first_match order h = None.
Proof.
  unfold first_match. induction order as [|g order IH]; simpl; [reflexivity|].
  intros H. rewrite (H g) by auto. apply IH. intros f Hf. apply H. auto.
Qed.

(** The outcome does not depend on the order in which the rules are tried. *)
Lemma first_match_perm (o1 o2 : list format) (h : bytes) :
  Permutation o1 o2 -> first_match o1 h = first_match o2 h.
Proof.
  intros P. destruct (first_match o1 h) as [f|] eqn:E.
  - unfold first_match in E. apply find_some in E. destruct E as [Hin Hf].
    symmetry. apply first_match_some; [|assumption].
    eapply Permutation_in; eassumption.
  - symmetry. apply first_match_none. intros f Hin.
    unfold first_match in E.
    apply (find_none _ _ E). eapply Permutation_in; [|eassumption].
    apply Permutation_sym. assumption.
Qed.

Lemma rule_table_complete (f : format) : In f rule_table.
Proof. destruct f; simpl; tauto. Qed.

Lemma media_type_inj (f g : format) : media_type f = media_type g -> f = g.
Proof. destruct f, g; simpl; intros H; try reflexivity; discriminate. Qed.

(** The code returns a rule's media type exactly when the rule matches. *)
Lemma classify_some_iff (f : format) (h : bytes) :
  classify h = Some (media_type f) <-> rule_cond f h = true.
Proof.
  rewrite classify_first_match. split.
  - destruct (first_match rule_table h) as [g|] eqn:E; simpl; [|discriminate].
    intros H. injection H as H. apply media_type_inj in H. subst g.
    unfold first_match in E. apply find_some in E. tauto.
  - intros H. rewrite (first_match_some rule_table f h);
      [reflexivity|apply rule_table_complete|assumption].
Qed.

Lemma classify_none_iff (h : bytes) :
  classify h = None <-> forall f, rule_cond f h = false.
Proof.
  rewrite classify_first_match. split.
  - destruct (first_match rule_table h) as [g|] eqn:E; simpl; [discriminate|].
    intros _ f. unfold first_match in E.
    apply (find_none _ _ E). apply rule_table_complete.
  - intros H. rewrite first_match_none; [reflexivity|]. intros f _. apply H.
Qed.

(** Whatever the code returns is one of the seven media types. *)
Lemma classify_range (h : bytes) (mt : string) :
  classify h = Some mt -> exists f, mt = media_type f /\ rule_cond f h = true.
Proof.
  rewrite classify_first_match.
  destruct (first_match rule_table h) as [g|] eqn:E; simpl; [|discriminate].
  intros H. injection H as <-. exists g. split; [reflexivity|].
  unfold first_match in E. apply find_some in E. tauto.
Qed.

(** A rule does not match a header shorter than the bytes it looks at. *)
Lemma rule_cond_short (f : format) (h : bytes) :
  length h < rule_len f -> rule_cond f h = false.
Proof.
  destruct f; unfold rule_cond, rule_len; intros H;
    repeat match goal with
           | |- context [bytes_eqb (slice ?lo ?hi h) ?pat] =>
               rewrite (slice_short lo hi h pat) by (simpl; lia)
           end;
    rewrite ?andb_false_r; reflexivity.
Qed.

End Rules.

(** ** The dispatcher and the packager *)

Section Dispatch.

Variable fs : filesystem.
Variable path : string.

Lemma detect_readable (content : bytes) (err : list string) :
  fs path = inr content ->
  detect_image_type path fs err = (Return (classify (firstn 12 content)), err).
Proof.
  intros H. unfold detect_image_type, try_except, bind, open_read, ret, read.
  rewrite H. reflexivity.
Qed.

Lemma detect_unreadable (e : exn) (err : list string) :
  fs path = inl e ->
  detect_image_type path fs err
  = (Return None, err ++ [("Error reading file: " ++ str e)%string]).
Proof.
  intros H.
  unfold detect_image_type, try_except, bind, open_read, ret, print_stderr.
  rewrite H. reflexivity.
Qed.

Lemma detect_failure :
  dispatch_failure fs path -> value_of (detect_image_type path) fs = Return None.
Proof.
  unfold value_of, run. intros [e H|content H Hno].
  - rewrite (detect_unreadable e) by assumption. reflexivity.
  - rewrite (detect_readable content) by assumption. simpl. f_equal.
    apply classify_none_iff. assumption.
Qed.

Lemma media_type_not_empty (f : format) : String.eqb (media_type f) "" = false.
Proof. destruct f; reflexivity. Qed.

Lemma package_failure :
  dispatch_failure fs path ->
  run (get_base64_with_correct_type path) fs
  = (Raise (ValueError ("Could not detect image type for " ++ path)),
     stderr_of (detect_image_type path) fs).
Proof.
  intros F. pose proof (detect_failure F) as V.
  unfold value_of, stderr_of, run in *.
  unfold get_base64_with_correct_type, bind at 1.
  destruct (detect_image_type path fs []) as [r err]. simpl in V. subst r.
  reflexivity.
Qed.

Lemma package_success (content : bytes) (mt : string) :
  fs path = inr content -> classify (firstn 12 content) = Some mt ->
  run (get_base64_with_correct_type path) fs
  = (Return (mt, Base64.b64encode content), []).
Proof.
  intros H C. unfold run, get_base64_with_correct_type, bind at 1.
  rewrite (detect_readable content) by assumption. rewrite C.
  destruct (classify_range _ _ C) as (f & -> & _).
  unfold str_not. rewrite media_type_not_empty.
  unfold bind, open_read, ret, read. rewrite H. reflexivity.
Qed.

End Dispatch.

(** Reading the only file of a file system returns normally. *)
Lemma detect_single_file (path : string) (content : bytes) :
  run (detect_image_type path) (single_file path content)
  = (Return (classify (firstn 12 content)), []).
Proof.
  unfold run. apply detect_readable.
  unfold single_file. rewrite String.eqb_refl. reflexivity.
Qed.

(** * The claims *)

(** ** C1: read failure and UNKNOWN *)

(** C1, as stated, fails: when no file can be read, and when the file
    ["photo.bin"] holds the three bytes [AB CD EF] that no rule matches,
    [detect_image_type "photo.bin"] returns the same value, [None]. *)
Lemma C1_read_failure_returns_unknown_value :
  (exists e, no_files "photo.bin" = inl e)
  /\ single_file "photo.bin" [xab; xcd; xef] "photo.bin" = inr [xab; xcd; xef]
  /\ classify (read (Some 12) [xab; xcd; xef]) = None
  /\ value_of (detect_image_type "photo.bin") no_files
     = value_of (detect_image_type "photo.bin")
         (single_file "photo.bin" [xab; xcd; xef]).
Proof.
  split; [eexists; reflexivity|]. repeat split.
Qed.

(** C1, amended: a failed read and a read whose header matches no rule both
    make [detect_image_type] return [None]; they differ only on standard
    error, where the failed read writes the line ["Error reading file: "]
    followed by the text of the exception and the unmatched read writes
    nothing. *)
Theorem C1_read_failure_differs_on_stderr_only
    (fs1 fs2 : filesystem) (p1 p2 : string) (e : exn) (content : bytes) :
  fs1 p1 = inl e ->
  fs2 p2 = inr content ->
  classify (read (Some 12) content) = None ->
  run (detect_image_type p1) fs1
  = (Return None, [("Error reading file: " ++ str e)%string])
  /\ run (detect_image_type p2) fs2 = (Return None, []).
Proof.
  intros H1 H2 C. unfold run. split.
  - rewrite (detect_unreadable fs1 p1 e) by assumption. reflexivity.
  - rewrite (detect_readable fs2 p2 content) by assumption.
    unfold read in C. rewrite C. reflexivity.
Qed.

Lemma C1_read_failure_differs_on_stderr_only_witness :
  run (detect_image_type "photo.bin") no_files
  = (Return None,
     ["Error reading file: [Errno 2] No such file or directory"])
  /\ run (detect_image_type "photo.bin")
       (single_file "photo.bin" [xab; xcd; xef])
     = (Return None, []).
Proof.
  apply (C1_read_failure_differs_on_stderr_only
           no_files (single_file "photo.bin" [xab; xcd; xef])
           "photo.bin" "photo.bin"
           (OSError "[Errno 2] No such file or directory") [xab; xcd; xef]);
    reflexivity.
Defined.

(** ** C2: the rule table in priority order *)

(** C2: for every header, the checks of the code give the media type of the
    first rule of the table PNG, JPEG, WEBP, GIF, BMP, ICO, TIFF whose byte
    pattern matches, and [None] (UNKNOWN) when none matches. *)
Theorem C2_classify_is_first_match_of_rule_table (h : bytes) :
  classify h
  = option_map media_type
      (find (fun f => rule_cond f h) [PNG; JPEG; WEBP; GIF; BMP; ICO; TIFF]).
Proof. apply classify_first_match. Qed.

(** ** C3: the result depends on the first 12 bytes only *)

(** C3: two readable files whose first 12 bytes agree get the same result
    from [detect_image_type], whatever their paths and whatever follows the
    first 12 bytes; the call writes nothing to standard error. *)
Theorem C3_detect_depends_on_header_only
    (fs1 fs2 : filesystem) (p1 p2 : string) (c1 c2 : bytes)
    (err : list string) :
  fs1 p1 = inr c1 ->
  fs2 p2 = inr c2 ->
  firstn 12 c1 = firstn 12 c2 ->
  detect_image_type p1 fs1 err = detect_image_type p2 fs2 err
  /\ snd (detect_image_type p1 fs1 err) = err.
Proof.
  intros H1 H2 E.
  rewrite (detect_readable fs1 p1 c1) by assumption.
  rewrite (detect_readable fs2 p2 c2) by assumption.
  rewrite E. split; reflexivity.
Qed.

Lemma C3_detect_depends_on_header_only_witness :
  detect_image_type "test.png" (single_file "test.png" png_file) []
  = detect_image_type "fake.webp"
      (single_file "fake.webp" (png_file ++ b "trailing bytes")) []
  /\ snd (detect_image_type "test.png" (single_file "test.png" png_file) [])
     = [].
Proof.
  apply (C3_detect_depends_on_header_only
           (single_file "test.png" png_file)
           (single_file "fake.webp" (png_file ++ b "trailing bytes"))
           "test.png" "fake.webp"
           png_file (png_file ++ b "trailing bytes") []);
    reflexivity.
Defined.

(** ** C4: RIFF that is not WebP *)

(** C4: a header whose bytes 0 to 3 are ["RIFF"] and whose bytes 8 to 11 are
    not ["WEBP"] is classified as UNKNOWN. *)
Theorem C4_riff_without_webp_is_unknown (h : bytes) :
  slice 0 4 h = [x52; x49; x46; x46] ->
  slice 8 12 h <> [x57; x45; x42; x50] ->
  classify h = None.
Proof.
  intros Hriff Hnot. apply classify_none_iff. intros f.
  destruct (rule_cond f h) eqn:Hf; [exfalso|reflexivity].
  assert (Hw : rule_cond WEBP h = false).
  { unfold rule_cond. apply andb_false_iff. right.
    apply bytes_eqb_neq. assumption. }
  assert (E : f = WEBP); [|congruence].
  apply rule_cond_first in Hf. destruct Hf as (c & t & -> & Hc).
  apply (rule_first_separates f WEBP c Hc).
  unfold slice in Hriff. simpl in Hriff. injection Hriff as -> _.
  simpl. auto.
Qed.

Lemma C4_riff_without_webp_is_unknown_witness : classify wav_header = None.
Proof.
  apply (C4_riff_without_webp_is_unknown wav_header).
  - reflexivity.
  - vm_compute. discriminate.
Defined.

(** ** C5: headers shorter than a rule *)

(** C5: a rule does not match a header with fewer bytes than the rule
    looks at, and the code does not return that rule's media type for it;
    a file holding just these bytes makes [detect_image_type] return
    normally, with nothing raised and nothing written to standard error.
    The first four bytes of the PNG signature alone are classified as
    UNKNOWN. *)
Theorem C5_short_header_does_not_match
    (f : format) (h : bytes) (path : string) :
  length h < rule_len f ->
  rule_cond f h = false
  /\ classify h <> Some (media_type f)
  /\ (exists r, run (detect_image_type path) (single_file path h)
                = (Return r, [])
                /\ r <> Some (media_type f))
  /\ classify [x89; x50; x4e; x47] = None.
Proof.
  intros H. pose proof (rule_cond_short f h H) as Hf.
  assert (Hf' : rule_cond f (firstn 12 h) = false).
  { apply rule_cond_short. rewrite length_firstn. lia. }
  repeat split.
  - assumption.
  - intros C. apply classify_some_iff in C. congruence.
  - exists (classify (firstn 12 h)). split; [apply detect_single_file|].
    intros C. apply classify_some_iff in C. congruence.
Qed.

Lemma C5_short_header_does_not_match_witness :
  rule_cond PNG [x89; x50; x4e; x47] = false
  /\ classify [x89; x50; x4e; x47] <> Some (media_type PNG)
  /\ (exists r, run (detect_image_type "cut.png")
                  (single_file "cut.png" [x89; x50; x4e; x47])
                = (Return r, [])
                /\ r <> Some (media_type PNG))
  /\ classify [x89; x50; x4e; x47] = None.
Proof.
  apply (C5_short_header_does_not_match PNG [x89; x50; x4e; x47] "cut.png").
  simpl. lia.
Defined.

(** ** C6: no guessed media type *)

(** C6: [detect_image_type] returns ["image/webp"] exactly for a readable
    file whose bytes 0 to 3 are ["RIFF"] and whose bytes 8 to 11 are
    ["WEBP"] (and the checks return it exactly for such a header); when the
    file cannot be read or no rule matches, the value returned is [None] and
    so none of the seven media types. *)
Theorem C6_webp_only_for_riff_webp_and_no_default
    (fs : filesystem) (path : string) (h : bytes) :
  (classify h = Some "image/webp"
   <-> slice 0 4 h = [x52; x49; x46; x46]
       /\ slice 8 12 h = [x57; x45; x42; x50])
  /\ (value_of (detect_image_type path) fs = Return (Some "image/webp")
      <-> exists content,
            fs path = inr content
            /\ slice 0 4 content = [x52; x49; x46; x46]
            /\ slice 8 12 content = [x57; x45; x42; x50])
  /\ (dispatch_failure fs path ->
      value_of (detect_image_type path) fs = Return None
      /\ forall f,
           value_of (detect_image_type path) fs <> Return (Some (media_type f))).
Proof.
  assert (W : forall x, classify x = Some "image/webp"
                        <-> slice 0 4 x = [x52; x49; x46; x46]
                            /\ slice 8 12 x = [x57; x45; x42; x50]).
  { intros x. rewrite (classify_some_iff WEBP x). unfold rule_cond.
    rewrite andb_true_iff, !bytes_eqb_eq. reflexivity. }
  split; [apply W|]. split.
  - unfold value_of, run. split.
    + destruct (fs path) as [e|content] eqn:H.
      * rewrite (detect_unreadable fs path e) by assumption. discriminate.
      * rewrite (detect_readable fs path content) by assumption. cbn [fst].
        intros E.
        assert (E' : classify (firstn 12 content) = Some "image/webp")
          by congruence.
        apply W in E'. rewrite !slice_firstn in E' by lia.
        exists content. tauto.
    + intros (content & H & H4 & H8).
      rewrite (detect_readable fs path content) by assumption. cbn [fst].
      f_equal. apply W. rewrite !slice_firstn by lia. tauto.
  - intros F. pose proof (detect_failure fs path F) as V. split; [assumption|].
    intros f. rewrite V. discriminate.
Qed.

Lemma C6_webp_only_for_riff_webp_and_no_default_witness :
  value_of (detect_image_type "gone.webp") no_files = Return None
  /\ forall f,
       value_of (detect_image_type "gone.webp") no_files
       <> Return (Some (media_type f)).
Proof.
  apply (C6_webp_only_for_riff_webp_and_no_default no_files "gone.webp" []).
  apply (io_failure no_files "gone.webp"
           (OSError "[Errno 2] No such file or directory")).
  reflexivity.
Defined.

(** ** C7: the packager *)

(** C7: [get_base64_with_correct_type] raises a [ValueError] naming the path
    exactly when the file cannot be read or no rule matches its header;
    otherwise it returns the media type paired with the base64 text of the
    whole content of the file. *)
Theorem C7_package_fails_exactly_on_unknown_or_io_failure
    (fs : filesystem) (path : string) :
  (dispatch_failure fs path ->
   value_of (get_base64_with_correct_type path) fs
   = Raise (ValueError ("Could not detect image type for " ++ path)))
  /\ (forall content mt,
        fs path = inr content ->
        classify (read (Some 12) content) = Some mt ->
        value_of (get_base64_with_correct_type path) fs
        = Return (mt, Base64.b64encode content))
  /\ ((exists e, value_of (get_base64_with_correct_type path) fs = Raise e)
      <-> dispatch_failure fs path).
Proof.
  assert (S : forall content mt,
             fs path = inr content ->
             classify (read (Some 12) content) = Some mt ->
             value_of (get_base64_with_correct_type path) fs
             = Return (mt, Base64.b64encode content)).
  { intros content mt H C. unfold value_of.
    rewrite (package_success fs path content mt) by assumption. reflexivity. }
  assert (F : dispatch_failure fs path ->
              value_of (get_base64_with_correct_type path) fs
              = Raise (ValueError ("Could not detect image type for " ++ path))).
  { intros D. unfold value_of. rewrite package_failure by assumption.
    reflexivity. }
  split; [exact F|]. split; [exact S|]. split.
  - intros [e E]. destruct (fs path) as [e'|content] eqn:H.
    + exact (io_failure fs path e' H).
    + destruct (classify (read (Some 12) content)) as [mt|] eqn:C.
      * rewrite (S content mt eq_refl C) in E. discriminate.
      * apply (no_match fs path content H). apply classify_none_iff.
        assumption.
  - intros D. eexists. apply F. assumption.
Qed.

Lemma C7_package_fails_exactly_on_unknown_or_io_failure_witness :
  value_of (get_base64_with_correct_type "gone.png") no_files
  = Raise (ValueError "Could not detect image type for gone.png")
  /\ value_of (get_base64_with_correct_type "fake.webp")
       (single_file "fake.webp" png_file)
     = Return ("image/png", "iVBORw0KGgoAAAANSUhEUgAAAAE=").
Proof.
  split.
  - apply (C7_package_fails_exactly_on_unknown_or_io_failure
             no_files "gone.png").
    apply (io_failure no_files "gone.png"
             (OSError "[Errno 2] No such file or directory")).
    reflexivity.
  - apply (proj1 (proj2 (C7_package_fails_exactly_on_unknown_or_io_failure
                           (single_file "fake.webp" png_file) "fake.webp"))
             png_file "image/png"); reflexivity.
Defined.

(** ** C8: the empty header *)

(** C8: the empty byte sequence is classified as UNKNOWN, and so is an empty
    file. *)
Theorem C8_empty_is_unknown (path : string) :
  classify [] = None
  /\ run (detect_image_type path) (single_file path []) = (Return None, []).
Proof.
  split; [reflexivity|]. rewrite detect_single_file. reflexivity.
Qed.

(** ** C9: the rules are mutually exclusive *)

(** C9: two different rules never match the same header, because a rule
    that matches fixes the first byte of the header to its own value(s)
    (0x89, 0xFF, 'R', 'G', 'B', 0x00, 'I' or 'M'); and checking the seven
    rules in any order gives the result of the code. *)
Theorem C9_rules_exclusive_and_order_irrelevant
    (f g : format) (order : list format) (h : bytes) :
  f <> g ->
  Permutation rule_table order ->
  (rule_cond f h = true -> rule_cond g h = false)
  /\ (rule_cond f h = true ->
      exists c t, h = c :: t /\ In c (rule_first f) /\ ~ In c (rule_first g))
  /\ classify_in_order order h = classify h.
Proof.
  intros Hfg P. split; [|split].
  - intros Hf. destruct (rule_cond g h) eqn:Hg; [|reflexivity].
    exfalso. apply Hfg. eapply rule_cond_unique; eassumption.
  - intros Hf. apply rule_cond_first in Hf. destruct Hf as (c & t & E & Hc).
    exists c, t. repeat split; [assumption|assumption|].
    intros Hg. apply Hfg. eapply rule_first_separates; eassumption.
  - rewrite classify_first_match. unfold classify_in_order. f_equal.
    symmetry. apply first_match_perm. assumption.
Qed.

Lemma C9_rules_exclusive_and_order_irrelevant_witness :
  (rule_cond TIFF (b "MM") = true -> rule_cond BMP (b "MM") = false)
  /\ (rule_cond TIFF (b "MM") = true ->
      exists c t,
        b "MM" = c :: t /\ In c (rule_first TIFF) /\ ~ In c (rule_first BMP))
  /\ classify_in_order (rev rule_table) (b "MM") = classify (b "MM").
Proof.
  apply (C9_rules_exclusive_and_order_irrelevant
           TIFF BMP (rev rule_table) (b "MM")).
  - discriminate.
  - apply Permutation_rev.
Defined.

(** ** C10: the media type of ICO *)

(** C10: a header whose bytes 0 to 3 are [00 00 01 00] is classified as
    ["image/x-icon"]. *)
Theorem C10_ico_is_image_x_icon (h : bytes) :
  slice 0 4 h = [x00; x00; x01; x00] ->
  classify h = Some "image/x-icon".
Proof.
  intros H. apply (classify_some_iff ICO h). unfold rule_cond.
  apply bytes_eqb_eq. assumption.
Qed.

Lemma C10_ico_is_image_x_icon_witness :
  classify [x00; x00; x01; x00; x01; x00] = Some "image/x-icon".
Proof.
  apply (C10_ico_is_image_x_icon [x00; x00; x01; x00; x01; x00]).
  reflexivity.
Defined.

(** * Further properties of the code *)

(** ** The header window *)

Section Window.

Lemma bytes_not_firstn (k : nat) (x : bytes) :
  0 < k -> bytes_not (firstn k x) = bytes_not x.
Proof. destruct k; [lia|]. destruct x; reflexivity. Qed.

(** The checks never look past byte 11. *)
Lemma classify_window (k : nat) (x : bytes) :
  12 <= k -> classify (firstn k x) = classify x.
Proof.
  intros Hk. unfold classify.
  rewrite bytes_not_firstn by lia. rewrite !slice_firstn by lia.
  reflexivity.
Qed.

End Window.

Section Appending.

(** A slice that has its full width is not changed by appending bytes. *)
Lemma slice_app (lo hi : nat) (x t pat : bytes) :
  length pat = hi - lo ->
  bytes_eqb (slice lo hi x) pat = true ->
  bytes_eqb (slice lo hi (x ++ t)) pat = true.
Proof.
  intros Hp H. apply bytes_eqb_eq in H. apply bytes_eqb_eq.
  assert (Hl : hi - lo <= length x - lo).
  { rewrite <- Hp, <- H. apply slice_length_le. }
  rewrite <- H. unfold slice.
  rewrite skipn_app, firstn_app, length_skipn.
  replace (hi - lo - (length x - lo)) with 0 by lia.
  rewrite firstn_O, app_nil_r. reflexivity.
Qed.

Lemma rule_cond_app (f : format) (x t : bytes) :
  rule_cond f x = true -> rule_cond f (x ++ t) = true.
Proof.
  destruct f; unfold rule_cond; intros H;
    repeat match type of H with
           | _ && _ = true =>
               let H1 := fresh in
               apply andb_true_iff in H; destruct H as [H1 H];
               apply (slice_app _ _ x t) in H1; [rewrite H1|reflexivity]
           | _ || _ = true =>
               apply orb_true_iff in H; destruct H as [H|H]
           end;
    apply (slice_app _ _ x t) in H; try reflexivity;
    rewrite H; rewrite ?orb_true_r; reflexivity.
Qed.

End Appending.

(** ** [detect_image_type] *)

Lemma detect_cases (fs : filesystem) (path : string) :
  (exists e, fs path = inl e
             /\ detect_image_type path fs []
                = (Return None, [("Error reading file: " ++ str e)%string]))
  \/ (exists content,
        fs path = inr content
        /\ detect_image_type path fs []
           = (Return (classify (firstn 12 content)), [])).
Proof.
  destruct (fs path) as [e|content] eqn:H.
  - left. exists e. split; [reflexivity|].
    apply (detect_unreadable fs path e []). assumption.
  - right. exists content. split; [reflexivity|].
    apply detect_readable. assumption.
Qed.

(** X1: [detect_image_type] never raises: whatever the file system does, it
    returns a value.  It keeps what standard error already holds and adds
    nothing when the file is read, one line when it is not. *)
Theorem X1_detect_never_raises
    (fs : filesystem) (path : string) (err : list string) :
  exists v lines,
    detect_image_type path fs err = (Return v, err ++ lines)
    /\ length lines <= 1
    /\ (lines = [] <-> exists content, fs path = inr content).
Proof.
  destruct (fs path) as [e|content] eqn:H.
  - exists None, [("Error reading file: " ++ str e)%string].
    rewrite (detect_unreadable fs path e) by assumption.
    repeat split; auto; [discriminate|].
    intros [content C]. discriminate.
  - exists (classify (firstn 12 content)), [].
    rewrite (detect_readable fs path content) by assumption.
    rewrite app_nil_r. repeat split; auto. exists content. reflexivity.
Qed.

(** X2: the twelve bytes that are read suffice: for a readable file the
    result is what the checks give on the whole content, and reading a
    longer header would give the same.  Eleven bytes would not do. *)
Theorem X2_twelve_bytes_suffice
    (fs : filesystem) (path : string) (content : bytes) (k : nat) :
  fs path = inr content ->
  12 <= k ->
  run (detect_image_type path) fs = (Return (classify content), [])
  /\ classify (firstn k content) = classify content
  /\ classify (firstn 11 webp_header) <> classify webp_header.
Proof.
  intros H Hk. unfold run.
  rewrite (detect_readable fs path content) by assumption.
  rewrite !classify_window by lia. repeat split. discriminate.
Qed.

Lemma X2_twelve_bytes_suffice_witness :
  run (detect_image_type "a.webp") (single_file "a.webp" (webp_header ++ b "VP8 "))
  = (Return (classify (webp_header ++ b "VP8 ")), [])
  /\ classify (firstn 14 (webp_header ++ b "VP8 "))
     = classify (webp_header ++ b "VP8 ")
  /\ classify (firstn 11 webp_header) <> classify webp_header.
Proof.
  apply (X2_twelve_bytes_suffice
           (single_file "a.webp" (webp_header ++ b "VP8 ")) "a.webp"
           (webp_header ++ b "VP8 ") 14).
  - reflexivity.
  - lia.
Defined.

(** X3: bytes appended to a header that is recognised do not change its
    classification. *)
Theorem X3_appended_bytes_keep_classification
    (h t : bytes) (mt : string) :
  classify h = Some mt -> classify (h ++ t) = Some mt.
Proof.
  intros C. destruct (classify_range _ _ C) as (f & -> & Hf).
  apply classify_some_iff. apply rule_cond_app. assumption.
Qed.

Lemma X3_appended_bytes_keep_classification_witness :
  classify ([x42; x4d] ++ b "RIFF....WEBP") = Some "image/bmp".
Proof.
  apply (X3_appended_bytes_keep_classification
           [x42; x4d] (b "RIFF....WEBP") "image/bmp").
  reflexivity.
Defined.

(** X4: the value [detect_image_type] returns is [None] or one of the seven
    media types, never the empty string; so the test [not media_type] of its
    callers holds exactly for [None]. *)
Theorem X4_detect_value_range (fs : filesystem) (path : string) :
  exists v,
    value_of (detect_image_type path) fs = Return v
    /\ (v = None \/ exists f, v = Some (media_type f))
    /\ v <> Some ""
    /\ (str_not v = true <-> v = None).
Proof.
  unfold value_of, run.
  destruct (detect_cases fs path) as [(e & _ & H)|(content & _ & H)].
  - rewrite H. exists None. cbn [fst]. repeat split; auto; discriminate.
  - rewrite H. cbn [fst]. exists (classify (firstn 12 content)).
    split; [reflexivity|].
    destruct (classify (firstn 12 content)) as [mt|] eqn:C.
    + destruct (classify_range _ _ C) as (f & -> & _).
      repeat split; try discriminate.
      * right. exists f. reflexivity.
      * destruct f; discriminate.
      * unfold str_not. rewrite media_type_not_empty. discriminate.
    + repeat split; auto; discriminate.
Qed.

(** X9: for each of the seven formats, [detect_image_type] returns its media
    type exactly when the file can be read and its content satisfies that
    format's own condition; the rules before it in the code never take a
    file away from it. *)
Theorem X9_detect_returns_type_iff_own_rule
    (fs : filesystem) (path : string) (f : format) :
  value_of (detect_image_type path) fs = Return (Some (media_type f))
  <-> exists content, fs path = inr content /\ rule_cond f content = true.
Proof.
  unfold value_of, run. split.
  - destruct (fs path) as [e|content] eqn:H.
    + rewrite (detect_unreadable fs path e) by assumption. discriminate.
    + rewrite (detect_readable fs path content) by assumption. cbn [fst].
      rewrite classify_window by lia. intros E.
      exists content. split; [reflexivity|].
      apply classify_some_iff. congruence.
  - intros (content & H & Hf).
    rewrite (detect_readable fs path content) by assumption. cbn [fst].
    rewrite classify_window by lia. f_equal.
    apply classify_some_iff. assumption.
Qed.

Lemma X9_detect_returns_type_iff_own_rule_witness :
  value_of (detect_image_type "scan.tif")
    (single_file "scan.tif" (b "MM" ++ [x00; x2a; x00; x00; x00; x08]))
  = Return (Some (media_type TIFF)).
Proof.
  apply (proj2 (X9_detect_returns_type_iff_own_rule
                  (single_file "scan.tif"
                     (b "MM" ++ [x00; x2a; x00; x00; x00; x08]))
                  "scan.tif" TIFF)).
  exists (b "MM" ++ [x00; x2a; x00; x00; x00; x08]).
  split; reflexivity.
Defined.

(** ** [get_base64_with_correct_type] *)

Section Packager.

Variable fs : filesystem.
Variable path : string.

(** The three ways a call of the packager goes. *)
Lemma package_cases :
  (exists e,
     fs path = inl e
     /\ run (get_base64_with_correct_type path) fs
        = (Raise (ValueError ("Could not detect image type for " ++ path)),
           [("Error reading file: " ++ str e)%string]))
  \/ (exists content,
        fs path = inr content
        /\ (forall f, rule_cond f content = false)
        /\ run (get_base64_with_correct_type path) fs
           = (Raise (ValueError ("Could not detect image type for " ++ path)),
              []))
  \/ (exists content f,
        fs path = inr content
        /\ rule_cond f content = true
        /\ run (get_base64_with_correct_type path) fs
           = (Return (media_type f, Base64.b64encode content), [])).
Proof.
  destruct (fs path) as [e|content] eqn:H.
  - left. exists e. split; [reflexivity|].
    rewrite (package_failure fs path (io_failure fs path e H)).
    unfold stderr_of, run.
    rewrite (detect_unreadable fs path e) by assumption. reflexivity.
  - right. destruct (classify content) as [mt|] eqn:C.
    + right. destruct (classify_range _ _ C) as (f & -> & Hf).
      exists content, f. repeat split; auto.
      apply package_success; [assumption|].
      rewrite classify_window by lia. assumption.
    + left. exists content. split; [reflexivity|].
      pose proof (proj1 (classify_none_iff content) C) as Hno.
      split; [assumption|].
      assert (F : dispatch_failure fs path).
      { apply (no_match fs path content H). apply classify_none_iff.
        unfold read. rewrite classify_window by lia. assumption. }
      rewrite (package_failure fs path F). unfold stderr_of, run.
      rewrite (detect_readable fs path content) by assumption. reflexivity.
Qed.

End Packager.

(** X5: when the packager returns a pair, the file was read, the media type
    is that of the one rule its content matches, the text is the base64
    encoding of the whole content, and nothing was written to standard
    error. *)
Theorem X5_package_return_is_sound
    (fs : filesystem) (path mt text : string) (err : list string) :
  run (get_base64_with_correct_type path) fs = (Return (mt, text), err) ->
  err = []
  /\ value_of (detect_image_type path) fs = Return (Some mt)
  /\ exists content f,
       fs path = inr content
       /\ rule_cond f content = true
       /\ mt = media_type f
       /\ text = Base64.b64encode content.
Proof.
  intros R.
  destruct (package_cases fs path)
    as [(e & _ & E)|[(content & _ & _ & E)|(content & f & H & Hf & E)]];
    rewrite E in R; try discriminate.
  injection R as <- <- <-. split; [reflexivity|]. split.
  - unfold value_of, run.
    rewrite (detect_readable fs path content) by assumption. cbn [fst].
    f_equal. rewrite classify_window by lia.
    apply classify_some_iff. assumption.
  - exists content, f. auto.
Qed.

Lemma X5_package_return_is_sound_witness :
  [] = ([] : list string)
  /\ value_of (detect_image_type "fake.webp") (single_file "fake.webp" png_file)
     = Return (Some "image/png")
  /\ exists content f,
       single_file "fake.webp" png_file "fake.webp" = inr content
       /\ rule_cond f content = true
       /\ "image/png" = media_type f
       /\ "iVBORw0KGgoAAAANSUhEUgAAAAE=" = Base64.b64encode content.
Proof.
  apply (X5_package_return_is_sound
           (single_file "fake.webp" png_file) "fake.webp"
           "image/png" "iVBORw0KGgoAAAANSUhEUgAAAAE=" []).
  reflexivity.
Defined.

(** X6: when the packager fails, the exception is always the [ValueError]
    ["Could not detect image type for <path>"]; the [OSError] of a failed
    read is never passed on, it only leaves the line
    ["Error reading file: ..."] on standard error.  A file that is read but
    not recognised leaves standard error empty. *)
Theorem X6_package_failure_is_value_error
    (fs : filesystem) (path : string) (ex : exn) (err : list string) :
  run (get_base64_with_correct_type path) fs = (Raise ex, err) ->
  ex = ValueError ("Could not detect image type for " ++ path)
  /\ ((exists e, fs path = inl e
                 /\ err = [("Error reading file: " ++ str e)%string])
      \/ (exists content, fs path = inr content
                          /\ classify content = None /\ err = [])).
Proof.
  intros R.
  destruct (package_cases fs path)
    as [(e & H & E)|[(content & H & Hno & E)|(content & f & _ & _ & E)]];
    rewrite E in R; try discriminate; injection R as <- <-.
  - split; [reflexivity|]. left. exists e. auto.
  - split; [reflexivity|]. right. exists content.
    repeat split; auto. apply classify_none_iff. assumption.
Qed.

Lemma X6_package_failure_is_value_error_witness :
  ValueError "Could not detect image type for gone.png"
  = ValueError ("Could not detect image type for " ++ "gone.png")
  /\ ((exists e, no_files "gone.png" = inl e
                 /\ ["Error reading file: [Errno 2] No such file or directory"]
                    = [("Error reading file: " ++ str e)%string])
      \/ (exists content, no_files "gone.png" = inr content
                          /\ classify content = None
                          /\ ["Error reading file: [Errno 2] No such file or directory"]
                             = [])).
Proof.
  apply (X6_package_failure_is_value_error no_files "gone.png").
  reflexivity.
Defined.

(** ** The base64 text *)

Section Base64Facts.

Import Base64.
Local Open Scope N_scope.

(** Induction on byte lists three bytes at a time, as the encoder recurses. *)
Lemma bytes_ind3 (P : bytes -> Prop) :
  P [] -> (forall a, P [a]) -> (forall a c, P [a; c]) ->
  (forall a c d rest, P rest -> P (a :: c :: d :: rest)) ->
  forall x, P x.
Proof.
  intros H0 H1 H2 H3.
  assert (A : forall x, P x /\ (forall a, P (a :: x)) /\ (forall a c, P (a :: c :: x))).
  { induction x as [|e x (IH0 & IH1 & IH2)]; repeat split; auto. }
  intros x. apply A.
Qed.

Lemma sextet_digit (g i : N) : sextet g i = digit (sextet_value g i).
Proof. reflexivity. Qed.

Lemma sextet_value_lt (g i : N) : sextet_value g i < 64.
Proof.
  unfold sextet_value. change 63 with (N.ones 6). rewrite N.land_ones.
  apply N.mod_lt. discriminate.
Qed.

Lemma below_64 (n : N) : n < 64 -> In (N.to_nat n) (seq 0 64).
Proof. intros H. apply in_seq. lia. Qed.

Lemma digit_index (n : N) : n < 64 -> index_of (digit n) alphabet = n.
Proof.
  intros H.
  assert (A : forallb (fun k => N.eqb (index_of (digit (N.of_nat k)) alphabet)
                                      (N.of_nat k))
                (seq 0 64) = true) by (vm_compute; reflexivity).
  rewrite forallb_forall in A. specialize (A _ (below_64 n H)).
  rewrite N2Nat.id in A. apply N.eqb_eq. assumption.
Qed.

Lemma digit_inj (n m : N) : n < 64 -> m < 64 -> digit n = digit m -> n = m.
Proof.
  intros Hn Hm E. rewrite <- (digit_index n Hn), <- (digit_index m Hm), E.
  reflexivity.
Qed.

Lemma digit_not_pad (n : N) : n < 64 -> digit n <> pad.
Proof.
  intros H.
  assert (A : forallb (fun k => negb (Ascii.eqb (digit (N.of_nat k)) pad))
                (seq 0 64) = true) by (vm_compute; reflexivity).
  rewrite forallb_forall in A. specialize (A _ (below_64 n H)).
  rewrite N2Nat.id in A. apply negb_true_iff in A.
  apply Ascii.eqb_neq. assumption.
Qed.

Lemma digit_in_alphabet (n : N) :
  n < 64 -> In (digit n) (list_ascii_of_string alphabet).
Proof.
  intros H.
  assert (A : forallb (fun k => existsb (Ascii.eqb (digit (N.of_nat k)))
                                  (list_ascii_of_string alphabet))
                (seq 0 64) = true) by (vm_compute; reflexivity).
  rewrite forallb_forall in A. specialize (A _ (below_64 n H)).
  rewrite N2Nat.id in A. apply existsb_exists in A.
  destruct A as (c & Hc & E). apply Ascii.eqb_eq in E. congruence.
Qed.

Lemma sextet_base64_char (g i : N) : base64_char (sextet g i).
Proof. left. apply digit_in_alphabet, sextet_value_lt. Qed.

Lemma sextet_not_pad (g i : N) : sextet g i <> pad.
Proof. apply digit_not_pad, sextet_value_lt. Qed.

Lemma sextet_inj (g g' i : N) :
  sextet g i = sextet g' i -> sextet_value g i = sextet_value g' i.
Proof. apply digit_inj; apply sextet_value_lt. Qed.

(** *** Groups as numbers *)

Lemma lor_shiftl_add (x y k : N) :
  y < 2 ^ k -> N.lor (N.shiftl x k) y = x * 2 ^ k + y.
Proof.
  intros H. rewrite N.shiftl_mul_pow2.
  assert (L : N.land (x * 2 ^ k) y = 0).
  { apply N.bits_inj. intros n. rewrite N.land_spec, N.bits_0.
    destruct (N.ltb_spec n k) as [L|L].
    - rewrite N.mul_pow2_bits_low by assumption. reflexivity.
    - rewrite <- (N.mod_small y (2 ^ k)) by assumption.
      rewrite N.mod_pow2_bits_high by assumption. apply andb_false_r. }
  rewrite N.add_nocarry_lxor, N.lxor_lor by assumption. reflexivity.
Qed.

Lemma group_add (a c d : byte) :
  group a c d = to_N a * 65536 + to_N c * 256 + to_N d.
Proof.
  unfold group.
  pose proof (to_N_bounded a). pose proof (to_N_bounded c).
  pose proof (to_N_bounded d).
  rewrite (lor_shiftl_add (to_N c) (to_N d) 8) by (simpl; lia).
  rewrite (lor_shiftl_add (to_N a) _ 16) by (simpl; lia).
  simpl. lia.
Qed.

Lemma group_lt (a c d : byte) : group a c d < 16777216.
Proof.
  rewrite group_add.
  pose proof (to_N_bounded a). pose proof (to_N_bounded c).
  pose proof (to_N_bounded d). lia.
Qed.

Lemma divmod64 (g : N) :
  exists q r, g / 64 = q /\ g mod 64 = r /\ g = 64 * q + r /\ r < 64.
Proof.
  exists (g / 64), (g mod 64). repeat split.
  - apply N.div_mod. discriminate.
  - apply N.mod_lt. discriminate.
Qed.

(** A group is the number its four digits write in base 64. *)
Lemma sextet_value_recon (g : N) :
  g < 16777216 ->
  g = ((sextet_value g 0 * 64 + sextet_value g 1) * 64 + sextet_value g 2) * 64
      + sextet_value g 3.
Proof.
  intros H. unfold sextet_value. change 63 with (N.ones 6).
  rewrite !N.land_ones, !N.shiftr_div_pow2. simpl (18 - _).
  change (2 ^ 18) with (64 * 64 * 64). change (2 ^ 12) with (64 * 64).
  change (2 ^ 6) with 64. change (2 ^ 0) with 1.
  rewrite <- !N.Div0.div_div, N.div_1_r.
  destruct (divmod64 g) as (q1 & r1 & -> & -> & D1 & M1).
  destruct (divmod64 q1) as (q2 & r2 & -> & -> & D2 & M2).
  destruct (divmod64 q2) as (q3 & r3 & -> & -> & D3 & M3).
  rewrite (N.mod_small q3 64) by lia. lia.
Qed.

Lemma to_N_inj (a c : byte) : to_N a = to_N c -> a = c.
Proof.
  intros E. pose proof (of_to_N a) as Ha. rewrite E, of_to_N in Ha.
  congruence.
Qed.

End Base64Facts.

Section Base64Text.

Import Base64.

Lemma b64encode_length (x : bytes) :
  String.length (b64encode x) = 4 * ((length x + 2) / 3).
Proof.
  induction x as [| a | a c | a c d rest IH] using bytes_ind3;
    try reflexivity.
  cbn [b64encode String.length length]. rewrite IH.
  replace (S (S (S (length rest))) + 2) with (1 * 3 + (length rest + 2)) by lia.
  rewrite Nat.div_add_l by discriminate. lia.
Qed.

Lemma b64encode_chars (x : bytes) :
  Forall base64_char (list_ascii_of_string (b64encode x)).
Proof.
  assert (P : base64_char pad) by (right; reflexivity).
  induction x as [| a | a c | a c d rest IH] using bytes_ind3;
    cbn [b64encode list_ascii_of_string];
    repeat (apply Forall_cons; [first [apply sextet_base64_char | exact P]|]);
    first [apply Forall_nil | exact IH].
Qed.

(** Two groups with the same four digits hold the same three bytes; when
    only the first two or three digits are known to agree, so do the first
    one or two bytes of groups that are padded with zero bytes. *)
Lemma group_digits_inj (a c d a' c' d' : byte) :
  sextet (group a c d) 0 = sextet (group a' c' d') 0 ->
  sextet (group a c d) 1 = sextet (group a' c' d') 1 ->
  (sextet (group a c d) 2 = sextet (group a' c' d') 2
   \/ (c = x00 /\ c' = x00 /\ d = x00 /\ d' = x00)) ->
  (sextet (group a c d) 3 = sextet (group a' c' d') 3 \/ (d = x00 /\ d' = x00)) ->
  a = a' /\ c = c' /\ d = d'.
Proof.
  intros H0 H1 H2 H3.
  apply sextet_inj in H0. apply sextet_inj in H1.
  pose proof (sextet_value_recon _ (group_lt a c d)) as R.
  pose proof (sextet_value_recon _ (group_lt a' c' d')) as R'.
  rewrite H0, H1 in R.
  pose proof (sextet_value_lt (group a c d) 2).
  pose proof (sextet_value_lt (group a c d) 3).
  pose proof (sextet_value_lt (group a' c' d') 2).
  pose proof (sextet_value_lt (group a' c' d') 3).
  pose proof (sextet_value_lt (group a' c' d') 1).
  rewrite group_add in R at 1. rewrite group_add in R' at 1.
  pose proof (to_N_bounded a). pose proof (to_N_bounded c).
  pose proof (to_N_bounded d). pose proof (to_N_bounded a').
  pose proof (to_N_bounded c'). pose proof (to_N_bounded d').
  assert (E : to_N a = to_N a' /\ to_N c = to_N c' /\ to_N d = to_N d').
  { destruct H2 as [H2|(-> & -> & -> & ->)]; destruct H3 as [H3|[Hd Hd']];
      try subst d; try subst d';
      try (apply sextet_inj in H2; rewrite H2 in R);
      try (apply sextet_inj in H3; rewrite H3 in R);
      change (to_N x00) with 0%N in *; lia. }
  destruct E as (Ea & Ec & Ed).
  apply to_N_inj in Ea. apply to_N_inj in Ec. apply to_N_inj in Ed. auto.
Qed.

Lemma String_inj (a a' : ascii) (s s' : string) :
  String a s = String a' s' -> a = a' /\ s = s'.
Proof. intros H. injection H as -> ->. auto. Qed.

Lemma b64encode_inj (x y : bytes) : b64encode x = b64encode y -> x = y.
Proof.
  revert y.
  induction x as [| a | a c | a c d rest IH] using bytes_ind3;
    intros [|a' [|c' [|d' rest']]] H; cbn [b64encode] in H;
    try discriminate; try reflexivity;
    repeat match goal with
           | E : String _ _ = String _ _ |- _ =>
               apply String_inj in E; destruct E as [? E]
           end;
    try (exfalso;
         match goal with
         | E : pad = sextet _ _ |- _ => apply (sextet_not_pad _ _ (eq_sym E))
         | E : sextet _ _ = pad |- _ => apply (sextet_not_pad _ _ E)
         end).
  - destruct (group_digits_inj a x00 x00 a' x00 x00) as (-> & _); auto 6.
  - destruct (group_digits_inj a c x00 a' c' x00) as (-> & -> & _); auto.
  - destruct (group_digits_inj a c d a' c' d') as (-> & -> & ->); auto.
    f_equal. f_equal. f_equal. apply IH. assumption.
Qed.

End Base64Text.

Lemma package_return_text
    (fs : filesystem) (path mt text : string) :
  value_of (get_base64_with_correct_type path) fs = Return (mt, text) ->
  exists content,
    fs path = inr content /\ text = Base64.b64encode content
    /\ classify content = Some mt.
Proof.
  unfold value_of. intros R.
  destruct (package_cases fs path)
    as [(e & _ & E)|[(content & _ & _ & E)|(content & f & H & Hf & E)]];
    rewrite E in R; cbn [fst] in R; try discriminate.
  injection R as <- <-. exists content. repeat split; auto.
  apply classify_some_iff. assumption.
Qed.

(** X7: the text the packager returns for a file of [n] bytes has
    [4 * ceil(n / 3)] characters, each a letter, a digit, [+], [/] or the
    padding [=]. *)
Theorem X7_package_text_shape
    (fs : filesystem) (path mt text : string) (content : bytes) :
  fs path = inr content ->
  value_of (get_base64_with_correct_type path) fs = Return (mt, text) ->
  String.length text = 4 * ((length content + 2) / 3)
  /\ Forall base64_char (list_ascii_of_string text).
Proof.
  intros H R. apply package_return_text in R.
  destruct R as (content' & H' & -> & _).
  assert (content' = content) as -> by congruence.
  split; [apply b64encode_length|apply b64encode_chars].
Qed.

Lemma X7_package_text_shape_witness :
  String.length "iVBORw0KGgoAAAANSUhEUgAAAAE=" = 4 * ((length png_file + 2) / 3)
  /\ Forall base64_char (list_ascii_of_string "iVBORw0KGgoAAAANSUhEUgAAAAE=").
Proof.
  apply (X7_package_text_shape
           (single_file "fake.webp" png_file) "fake.webp" "image/png"
           "iVBORw0KGgoAAAANSUhEUgAAAAE=" png_file);
    reflexivity.
Defined.

(** X8: the text determines the file: when the packager returns the same
    text for two files, under whatever paths, the two files have the same
    content. *)
Theorem X8_package_text_determines_content
    (fs1 fs2 : filesystem) (p1 p2 mt1 mt2 text : string) (c1 c2 : bytes) :
  fs1 p1 = inr c1 ->
  fs2 p2 = inr c2 ->
  value_of (get_base64_with_correct_type p1) fs1 = Return (mt1, text) ->
  value_of (get_base64_with_correct_type p2) fs2 = Return (mt2, text) ->
  c1 = c2 /\ mt1 = mt2.
Proof.
  intros H1 H2 R1 R2.
  apply package_return_text in R1. apply package_return_text in R2.
  destruct R1 as (c1' & H1' & E1 & C1). destruct R2 as (c2' & H2' & E2 & C2).
  assert (c1' = c1) as -> by congruence.
  assert (c2' = c2) as -> by congruence.
  assert (E : c1 = c2) by (apply b64encode_inj; congruence).
  split; [assumption|]. congruence.
Qed.

Lemma X8_package_text_determines_content_witness :
  png_file = png_file /\ "image/png" = "image/png".
Proof.
  apply (X8_package_text_determines_content
           (single_file "test.png" png_file) (single_file "fake.webp" png_file)
           "test.png" "fake.webp" "image/png" "image/png"
           "iVBORw0KGgoAAAANSUhEUgAAAAE=" png_file png_file);
    reflexivity.
Defined.
(** ** The command line *)

Section CommandLine.

Variable ev : env.

Lemma lift_detect (p : string) (s : streams) :
  lift (detect_image_type p) ev s
  = match files ev p with
    | inl e =>
        (Done None,
         {| stdout := stdout s;
            stderr := stderr s ++ [("Error reading file: " ++ str e)%string] |})
    | inr content =>
        (Done (classify (firstn 12 content)),
         {| stdout := stdout s; stderr := stderr s |})
    end.
Proof.
  unfold lift. destruct (files ev p) as [e|content] eqn:H.
  - rewrite (detect_unreadable (files ev) p e) by assumption. reflexivity.
  - rewrite (detect_readable (files ev) p content) by assumption. reflexivity.
Qed.

(** What the script does with exactly one argument, case by case. *)
Lemma run_script_one_argument (prog p : string) :
  run_script [prog; p] ev
  = if path_exists ev p then
      match files ev p with
      | inl e =>
          (1, {| stdout := [];
                 stderr := [("Error reading file: " ++ str e)%string;
                            "Error: Could not detect image type"] |})
      | inr content =>
          match classify (firstn 12 content) with
          | Some mt => (0, {| stdout := [mt]; stderr := [] |})
          | None =>
              (1, {| stdout := [];
                     stderr := ["Error: Could not detect image type"] |})
          end
      end
    else
      (1, {| stdout := [];
             stderr := [("Error: File not found: " ++ p)%string] |}).
Proof.
  unfold run_script, main, when, exists_. cbn [length Nat.eqb negb nth].
  unfold cbind at 1. unfold cret at 1. unfold cbind at 1.
  destruct (path_exists ev p); cbn [negb].
  - unfold cbind at 1. unfold cret at 1. unfold cbind at 1.
    rewrite lift_detect. destruct (files ev p) as [e|content].
    + reflexivity.
    + destruct (classify (firstn 12 content)) as [mt|] eqn:C.
      * destruct (classify_range _ _ C) as (f & -> & _).
        unfold str_not. rewrite media_type_not_empty. reflexivity.
      * reflexivity.
  - reflexivity.
Qed.

Lemma run_script_usage (argv : list string) :
  length argv <> 2 ->
  run_script argv ev = (1, {| stdout := usage_lines; stderr := [] |}).
Proof.
  intros H. unfold run_script, main, when.
  apply Nat.eqb_neq in H. rewrite H. reflexivity.
Qed.

End CommandLine.

(** X10: with an argument count other than one, the script prints the two
    usage lines on standard output, writes nothing to standard error and
    exits with status 1, whatever the files are. *)
Theorem X10_main_usage_on_wrong_argument_count
    (ev1 ev2 : env) (argv : list string) :
  length argv <> 2 ->
  run_script argv ev1 = (1, {| stdout := usage_lines; stderr := [] |})
  /\ run_script argv ev1 = run_script argv ev2.
Proof.
  intros H. rewrite !run_script_usage by assumption. split; reflexivity.
Qed.

Lemma X10_main_usage_on_wrong_argument_count_witness :
  run_script ["fix_image_media_type.py"; "a.png"; "b.png"]
    (single_file_env "a.png" png_file)
  = (1, {| stdout := usage_lines; stderr := [] |})
  /\ run_script ["fix_image_media_type.py"; "a.png"; "b.png"]
       (single_file_env "a.png" png_file)
     = run_script ["fix_image_media_type.py"; "a.png"; "b.png"] empty_env.
Proof.
  apply (X10_main_usage_on_wrong_argument_count
           (single_file_env "a.png" png_file) empty_env
           ["fix_image_media_type.py"; "a.png"; "b.png"]).
  simpl. lia.
Defined.



(** X12: the script exits with status 0 exactly when it is given one
    argument, the path exists, the file can be read and one of the seven
    rules matches its content; it then prints that rule's media type, alone,
    on standard output and nothing on standard error. *)
Theorem X12_main_succeeds_exactly_on_recognised_file
    (ev : env) (argv : list string) :
  (fst (run_script argv ev) = 0
   <-> exists prog p content f,
         argv = [prog; p] /\ path_exists ev p = true
         /\ files ev p = inr content /\ rule_cond f content = true)
  /\ (forall prog p content f,
        argv = [prog; p] -> path_exists ev p = true ->
        files ev p = inr content -> rule_cond f content = true ->
        run_script argv ev
        = (0, {| stdout := [media_type f]; stderr := [] |})).
Proof.
  assert (S : forall prog p content f,
             argv = [prog; p] -> path_exists ev p = true ->
             files ev p = inr content -> rule_cond f content = true ->
             run_script argv ev
             = (0, {| stdout := [media_type f]; stderr := [] |})).
  { intros prog p content f -> He Hf Hr.
    rewrite run_script_one_argument, He, Hf.
    rewrite (classify_window 12 content) by lia.
    apply classify_some_iff in Hr. rewrite Hr. reflexivity. }
  split; [|exact S]. split.
  - intros H.
    destruct argv as [|prog [|p [|q rest]]];
      try (rewrite run_script_usage in H by (simpl; lia); discriminate).
    rewrite run_script_one_argument in H.
    destruct (path_exists ev p) eqn:He; [|discriminate].
    destruct (files ev p) as [e|content] eqn:Hf; [discriminate|].
    destruct (classify (firstn 12 content)) as [mt|] eqn:C; [|discriminate].
    rewrite (classify_window 12 content) in C by lia.
    destruct (classify_range _ _ C) as (f & _ & Hr).
    exists prog, p, content, f. auto.
  - intros (prog & p & content & f & E & He & Hf & Hr).
    rewrite (S prog p content f) by assumption. reflexivity.
Qed.

Lemma X12_main_succeeds_exactly_on_recognised_file_witness :
  run_script ["fix_image_media_type.py"; "fake.webp"]
    (single_file_env "fake.webp" png_file)
  = (0, {| stdout := ["image/png"]; stderr := [] |}).
Proof.
  apply (proj2 (X12_main_succeeds_exactly_on_recognised_file
                  (single_file_env "fake.webp" png_file)
                  ["fix_image_media_type.py"; "fake.webp"])
           "fix_image_media_type.py" "fake.webp" png_file PNG);
    reflexivity.
Defined.

(** X13: for an existing path the script tells the two failures apart on
    standard error only.  A file that cannot be read gives the line
    ["Error reading file: ..."] followed by
    ["Error: Could not detect image type"]; a file that is read and matches
    no rule gives the second line alone.  Both exit with status 1 and print
    nothing on standard output. *)
Theorem X13_main_failure_diagnostics
    (ev : env) (prog p : string) :
  path_exists ev p = true ->
  (forall e,
     files ev p = inl e ->
     run_script [prog; p] ev
     = (1, {| stdout := [];
              stderr := [("Error reading file: " ++ str e)%string;
                         "Error: Could not detect image type"] |}))
  /\ (forall content,
        files ev p = inr content ->
        (forall f, rule_cond f content = false) ->
        run_script [prog; p] ev
        = (1, {| stdout := [];
                 stderr := ["Error: Could not detect image type"] |})).
Proof.
  intros He. split.
  - intros e Hf. rewrite run_script_one_argument, He, Hf. reflexivity.
  - intros content Hf Hno. rewrite run_script_one_argument, He, Hf.
    rewrite (classify_window 12 content) by lia.
    apply classify_none_iff in Hno. rewrite Hno. reflexivity.
Qed.

Lemma X13_main_failure_diagnostics_witness :
  run_script ["fix_image_media_type.py"; "locked.png"]
    (unreadable_env "locked.png")
  = (1, {| stdout := [];
           stderr := ["Error reading file: [Errno 13] Permission denied";
                      "Error: Could not detect image type"] |}).
Proof.
  apply (proj1 (X13_main_failure_diagnostics
                  (unreadable_env "locked.png")
                  "fix_image_media_type.py" "locked.png" eq_refl)
           (OSError "[Errno 13] Permission denied")).
  reflexivity.
Defined.

(** X14: every run of the script ends with status 0 or 1 and writes to one
    of the two streams only, never to both and never to neither; a run that
    ends with status 1 prints no media type. *)
Theorem X14_main_stream_discipline (ev : env) (argv : list string) :
  (fst (run_script argv ev) = 0 \/ fst (run_script argv ev) = 1)
  /\ (stdout (snd (run_script argv ev)) = []
      <-> stderr (snd (run_script argv ev)) <> [])
  /\ (fst (run_script argv ev) = 1 ->
      forall f, ~ In (media_type f) (stdout (snd (run_script argv ev)))).
Proof.
  destruct argv as [|prog [|p [|q rest]]];
    try (rewrite run_script_usage by (simpl; lia); cbn [fst snd stdout stderr];
         repeat split; auto; try discriminate; try congruence;
         intros _ f; destruct f; simpl; intuition discriminate).
  rewrite run_script_one_argument.
  destruct (path_exists ev p); [destruct (files ev p) as [e|content];
    [|destruct (classify (firstn 12 content)) as [mt|]]|];
    cbn [fst snd stdout stderr]; repeat split; auto;
    try discriminate; try congruence; intros _ f; simpl; tauto.
Qed.

Lemma X14_main_stream_discipline_witness :
  ~ In (media_type PNG)
      (stdout (snd (run_script ["fix_image_media_type.py"; "gone.png"]
                      empty_env))).
Proof.
  apply (proj2 (proj2 (X14_main_stream_discipline
                         empty_env ["fix_image_media_type.py"; "gone.png"]))
           eq_refl PNG).
Defined.

(** X15: the script and the packager agree: for an existing path, the
    script prints a media type and exits with status 0 exactly when
    [get_base64_with_correct_type] returns a pair with that media type. *)
Theorem X15_main_and_packager_agree
    (ev : env) (prog p mt : string) :
  path_exists ev p = true ->
  (run_script [prog; p] ev = (0, {| stdout := [mt]; stderr := [] |})
   <-> exists text,
         value_of (get_base64_with_correct_type p) (files ev)
         = Return (mt, text)).
Proof.
  intros He. rewrite run_script_one_argument, He. split.
  - destruct (files ev p) as [e|content] eqn:Hf; [discriminate|].
    destruct (classify (firstn 12 content)) as [mt'|] eqn:C; [|discriminate].
    intros E. injection E as ->.
    exists (Base64.b64encode content). unfold value_of.
    rewrite (package_success (files ev) p content mt) by assumption.
    reflexivity.
  - intros [text R]. apply package_return_text in R.
    destruct R as (content & Hf & _ & C).
    rewrite Hf, classify_window by lia. rewrite C. reflexivity.
Qed.

Lemma X15_main_and_packager_agree_witness :
  run_script ["fix_image_media_type.py"; "fake.webp"]
    (single_file_env "fake.webp" png_file)
  = (0, {| stdout := ["image/png"]; stderr := [] |}).
Proof.
  apply (proj2 (X15_main_and_packager_agree
                  (single_file_env "fake.webp" png_file)
                  "fix_image_media_type.py" "fake.webp" "image/png" eq_refl)).
  exists "iVBORw0KGgoAAAANSUhEUgAAAAE=". reflexivity.
Defined.
